(** * MediRank (app2.py): a shallow embedding of the login gate, the
    artifact loaders and the hospital ranking pipeline.

    The Streamlit script is modelled with explicit state passing: the
    mutable [st.session_state] dictionary and the elements written to the
    page are the state, exceptions and [st.rerun()] are outcomes.  Widget
    return values (text inputs, select boxes, buttons) are the inputs of
    each page function. *)

From stdpp Require Import base option list list_numbers sorting gmap strings.
From Stdlib Require Import ZArith Lia.

(** ** Python values and exceptions *)

(** The values the script stores in [st.session_state]. *)
Inductive value :=
  | PyNone
  | PyBool (b : bool)
  | PyStr (s : string).

Global Instance value_eq_dec : EqDecision value.
Proof. solve_decision. Defined.

(** Truth value testing, as used by [not st.session_state["logged_in"]]. *)
Definition truthy (v : value) : bool :=
  match v with
  | PyNone => false
  | PyBool b => b
  | PyStr s => negb (String.eqb s "")
  end.

(** [str(v)], as used by f-string interpolation. *)
Definition py_str (v : value) : string :=
  match v with
  | PyNone => "None"
  | PyBool true => "True"
  | PyBool false => "False"
  | PyStr s => s
  end.

(** The classes of the [Exception] instances the modelled operations raise. *)
Inductive exc_class :=
  | FileNotFoundError
  | PermissionError
  | UnpicklingError
  | KeyError
  | IndexError
  | ValueError
  | AttributeError
  | OtherException.

Global Instance exc_class_eq_dec : EqDecision exc_class.
Proof. solve_decision. Defined.

(** An exception instance: its class and [str(e)]. *)
Record exc := Exc { exc_type : exc_class; exc_str : string }.

(** Results of code that either returns or raises. *)
Inductive result (A : Type) :=
  | Ok (a : A)
  | Err (e : exc).
Arguments Ok {A} a.
Arguments Err {A} e.

Global Instance result_ret : MRet result := λ A a, Ok a.
Global Instance result_bind : MBind result := λ A B f r,
  match r with
  | Ok a => f a
  | Err e => Err e
  end.

(** ** The Streamlit runtime seen by the script *)

(** Elements the script writes to the page.  [T] is the type of the tables
    shown with [st.dataframe]. *)
Inductive element (T : Type) :=
  | PageConfig (page_title page_icon : string)
  | Title (s : string)
  | Write (s : string)
  | Success (s : string)
  | Error (s : string)
  | SidebarButton (label : string)
  | Dataframe (t : T).
Arguments PageConfig {T} page_title page_icon.
Arguments Title {T} s.
Arguments Write {T} s.
Arguments Success {T} s.
Arguments Error {T} s.
Arguments SidebarButton {T} label.
Arguments Dataframe {T} t.

(** The state a script run reads and writes: the per-session dictionary
    [st.session_state] and the page drawn so far (oldest element first). *)
Record app (T : Type) := App {
  session_state : gmap string value;
  page : list (element T)
}.
Arguments App {T} session_state page.
Arguments session_state {T} a.
Arguments page {T} a.

(** How a piece of script ends: it returns, an exception escapes it, or
    [st.rerun()] stops the run. *)
Inductive outcome (A : Type) :=
  | Done (a : A)
  | Raised (e : exc)
  | Rerun.
Arguments Done {A} a.
Arguments Raised {A} e.
Arguments Rerun {A}.

Definition St (T A : Type) : Type := app T → outcome A * app T.

Global Instance St_ret {T} : MRet (St T) := λ A a s, (Done a, s).
Global Instance St_bind {T} : MBind (St T) := λ A B f m s,
  match m s with
  | (Done a, s') => f a s'
  | (Raised e, s') => (Raised e, s')
  | (Rerun, s') => (Rerun, s')
  end.

Section Streamlit.
Context {T : Type}.

Definition raise {A} (e : exc) : St T A := λ s, (Raised e, s).

(** [st.rerun()]. *)
Definition st_rerun {A} : St T A := λ s, (Rerun, s).

(** Run code of the error monad inside a script. *)
Definition lift {A} (r : result A) : St T A :=
  match r with
  | Ok a => mret a
  | Err e => raise e
  end.

(** [try: body / except <classes matching catches> as e: handler e]. *)
Definition try_except {A} (body : St T A) (catches : exc → bool)
    (handler : exc → St T A) : St T A := λ s,
  match body s with
  | (Raised e, s') => if catches e then handler e s' else (Raised e, s')
  | r => r
  end.

Definition draw (e : element T) : St T unit := λ s,
  (Done (), App (session_state s) (page s ++ [e])).

Definition st_set_page_config (page_title page_icon : string) : St T unit :=
  draw (PageConfig page_title page_icon).
Definition st_title (s : string) : St T unit := draw (Title s).
Definition st_write (s : string) : St T unit := draw (Write s).
Definition st_success (s : string) : St T unit := draw (Success s).
Definition st_error (s : string) : St T unit := draw (Error s).
Definition st_sidebar_button (label : string) : St T unit :=
  draw (SidebarButton label).
Definition st_dataframe (t : T) : St T unit := draw (Dataframe t).

(** [key in st.session_state]. *)
Definition session_contains (key : string) : St T bool := λ s,
  (Done (bool_decide (is_Some (session_state s !! key))), s).

(** [st.session_state[key]]; a missing key raises [KeyError]. *)
Definition session_get (key : string) : St T value := λ s,
  match session_state s !! key with
  | Some v => (Done v, s)
  | None => (Raised (Exc KeyError key), s)
  end.

(** [st.session_state[key] = v]. *)
Definition session_set (key : string) (v : value) : St T unit := λ s,
  (Done (), App (<[key := v]> (session_state s)) (page s)).
End Streamlit.

(** ** Login system (app2.py, lines 37-74) *)

Definition USER_CREDENTIALS : gmap string string :=
  <["admin" := "password123"]> (<["user" := "medi123"]> ∅).

(** The credential check of [login_page] (line 61):
    [username in USER_CREDENTIALS and USER_CREDENTIALS[username] == password]. *)
Definition authenticate (username password : string) : bool :=
  bool_decide (is_Some (USER_CREDENTIALS !! username))
  && bool_decide (USER_CREDENTIALS !! username = Some password).

Section LoginSystem.
Context {T : Type}.

Definition initialize_session_state : St T unit :=
  has_flag ← session_contains "logged_in";
  (if negb has_flag then session_set "logged_in" (PyBool false) else mret ());;
  has_name ← session_contains "username";
  (if negb has_name then session_set "username" PyNone else mret ()).

(** [username], [password] are what the two [st.text_input] widgets hold,
    [login_clicked] what [st.button("Login")] returns. *)
Definition login_page (username password : string) (login_clicked : bool)
    : St T unit :=
  st_title "🔐 MediRank - Login";;
  st_write "Please enter your credentials to access the hospital ranking system.";;
  if login_clicked then
    if authenticate username password then
      session_set "logged_in" (PyBool true);;
      session_set "username" (PyStr username);;
      st_success ("✅ Welcome, " ++ username ++ "! Redirecting...");;
      st_rerun
    else
      st_error "❌ Invalid username or password."
  else mret ().

Definition logout : St T unit :=
  session_set "logged_in" (PyBool false);;
  session_set "username" PyNone;;
  st_rerun.
End LoginSystem.

(** ** Third-party interfaces (pandas, numpy, scikit-learn) *)

(** The numeric library under pandas: the type of predicted costs, their
    order [<=], and [argsort] as [DataFrame.sort_values] calls it.  The script
    leaves [kind] at its default (quicksort), so all that is known of
    [argsort] is [NumericContract] below. *)
Class NumericLib := {
  cost : Type;
  cost_le : relation cost;
  argsort : list cost → list nat
}.

(** What the default [argsort] guarantees: the positions [0 .. n-1] in an
    order that lists the keys in non-decreasing order. *)
Class NumericContract (lib : NumericLib) : Prop := {
  argsort_perm : ∀ keys, argsort keys ≡ₚ seq 0 (length keys);
  argsort_sorted : ∀ keys, Sorted cost_le (omap (keys !!.) (argsort keys))
}.

(** A pandas frame: rows in order, each with its index label. *)
Abbreviation DataFrame A := (list (Z * A)%type).

(** [range(a, b)] as a list. *)
Definition range (a b : Z) : list Z := seqZ a (b - a).

(** The frame's default [RangeIndex]. *)
Definition RangeIndex (n : nat) : list Z := seqZ 0 (Z.of_nat n).

(** The feature columns of [input_data]. *)
Record CandidateRow := {
  Procedure : Z;
  Provider_Id : Z;
  Provider_State : Z;
  Total_Discharge : Z;
  Avg_covered_charges : Z
}.

(** The columns of [top_3_hospitals]. *)
Record ResultRow `{NumericLib} := {
  Rank : Z;
  Top_Provider_Id : Z;
  Average_Total_Payments : cost
}.

(** [pd.DataFrame({...})] over the five feature columns. *)
Definition pd_DataFrame (procedure provider_id provider_state total_discharge
    avg_covered_charges : list Z) : result (DataFrame CandidateRow) :=
  let n := length procedure in
  if forallb (λ c : list Z, length c =? n)
       [provider_id; provider_state; total_discharge; avg_covered_charges]
  then
    Ok (zip (RangeIndex n)
          (zip_with (λ f x, f x) (zip_with (λ f x, f x) (zip_with (λ f x, f x)
             (zip_with Build_CandidateRow procedure provider_id)
             provider_state) total_discharge) avg_covered_charges))
  else Err (Exc ValueError "All arrays must be of the same length").

(** [df[column] = values]: one value per row, or [ValueError]. *)
Definition set_column {A B} (df : DataFrame A) (values : list B)
    : result (DataFrame (A * B)) :=
  if length values =? length df then
    Ok (zip_with (λ '(i, r) v, (i, (r, v))) df values)
  else Err (Exc ValueError "Length of values does not match length of index").

(** [df.sort_values(by=..., ascending=True)]: the rows, labels kept, taken
    in the order [argsort] gives for the key column. *)
Definition sort_values `{NumericLib} {A} (key : A → cost) (df : DataFrame A)
    : DataFrame A :=
  omap (df !!.) (argsort ((λ r, key r.2) <$> df)).

(** [df.reset_index(drop=True)]. *)
Definition reset_index {A} (df : DataFrame A) : DataFrame A :=
  zip (RangeIndex (length df)) df.*2.

(** [df.head(n)]. *)
Definition df_head {A} (n : nat) (df : DataFrame A) : DataFrame A := take n df.

(** Modelled from the spec: the pickled encoders are not among the sources;
    section 3 gives their contract, a bijection between the ordered label set
    [classes_] and the codes [0 .. n-1] that fails on an unseen label. *)
Record LabelEncoder := { le_classes : list string }.

Definition encode_label (le : LabelEncoder) (label : string) : result Z :=
  match list_find (λ c, c = label) (le_classes le) with
  | Some (i, _) => Ok (Z.of_nat i)
  | None => Err (Exc ValueError ("y contains previously unseen labels: " ++ label))
  end.

Fixpoint encode_labels (le : LabelEncoder) (y : list string) : result (list Z) :=
  match y with
  | [] => Ok []
  | label :: y' =>
      code ← encode_label le label;
      codes ← encode_labels le y';
      mret (code :: codes)
  end.

(** A regression model: [predict] over the feature rows, opaque. *)
Record Model `{NumericLib} := {
  model_predict : list CandidateRow → result (list cost)
}.

(** The objects the pickle files may hold. *)
Inductive pyobj `{NumericLib} :=
  | Regressor (m : Model)
  | Encoder (le : LabelEncoder).

Section Attributes.
Context `{NumericLib}.

(** [obj.classes_]. *)
Definition classes_ (obj : pyobj) : result (list string) :=
  match obj with
  | Encoder le => Ok (le_classes le)
  | Regressor _ => Err (Exc AttributeError "object has no attribute 'classes_'")
  end.

(** [obj.transform(y)]. *)
Definition transform (obj : pyobj) (y : list string) : result (list Z) :=
  match obj with
  | Encoder le => encode_labels le y
  | Regressor _ => Err (Exc AttributeError "object has no attribute 'transform'")
  end.

(** [obj.predict(df)]. *)
Definition predict (obj : pyobj) (df : DataFrame CandidateRow)
    : result (list cost) :=
  match obj with
  | Regressor m => model_predict m df.*2
  | Encoder _ => Err (Exc AttributeError "object has no attribute 'predict'")
  end.

(** [xs[0]]. *)
Definition getitem0 {A} (xs : list A) : result A :=
  match xs with
  | x :: _ => Ok x
  | [] => Err (Exc IndexError "index 0 is out of bounds for axis 0 with size 0")
  end.
End Attributes.

(** ** Artifact loaders (app2.py, lines 5-35) *)

(** What a path of the working directory holds: a file [open] refuses
    ([PermissionError]), a file that is no pickle, or a pickled object.  A
    path outside the map does not exist. *)
Inductive file `{NumericLib} :=
  | Denied
  | Garbage
  | Pickle (obj : pyobj).

Section Loaders.
Context `{NumericLib} {T : Type}.

(** [with open(path, "rb") as f: pickle.load(f)]. *)
Definition load_pickle (fs : gmap string file) (path : string) : result pyobj :=
  match fs !! path with
  | None => Err (Exc FileNotFoundError ("No such file or directory: " ++ path))
  | Some Denied => Err (Exc PermissionError ("Permission denied: " ++ path))
  | Some Garbage => Err (Exc UnpicklingError "invalid load key")
  | Some (Pickle obj) => Ok obj
  end.

(** [except FileNotFoundError]. *)
Definition is_FileNotFoundError (e : exc) : bool :=
  bool_decide (exc_type e = FileNotFoundError).

(** One execution of the body of [load_models]; [st.cache_resource] keeps
    the value it returns for later calls. *)
Definition load_models (fs : gmap string file)
    : St T (option pyobj * option pyobj) :=
  try_except
    (inpatient_model ← lift (load_pickle fs "inpatient_model.pkl");
     outpatient_model ← lift (load_pickle fs "outpatient_model.pkl");
     mret (Some inpatient_model, Some outpatient_model))
    is_FileNotFoundError
    (λ _, st_error "❌ Model files not found. Please check the file paths.";;
          mret (None, None)).

(** One execution of the body of [load_encoders]. *)
Definition load_encoders (fs : gmap string file)
    : St T (option pyobj * option pyobj * option pyobj * option pyobj) :=
  try_except
    (inpatient_le_drg ← lift (load_pickle fs "le_drg.pkl");
     inpatient_le_state ← lift (load_pickle fs "le_state.pkl");
     outpatient_le_apc ← lift (load_pickle fs "le_drg_outpatient.pkl");
     outpatient_le_state ← lift (load_pickle fs "le_state_outpatient.pkl");
     mret (Some inpatient_le_drg, Some inpatient_le_state,
           Some outpatient_le_apc, Some outpatient_le_state))
    is_FileNotFoundError
    (λ _, st_error "❌ Encoder files not found. Please check the file paths.";;
          mret (None, None, None, None)).
End Loaders.

(** ** Main application (app2.py, lines 77-152) *)

(** The six loaded objects, once [main_app] has checked none is [None]. *)
Record artifacts `{NumericLib} := {
  inpatient_model : pyobj;
  outpatient_model : pyobj;
  inpatient_le_drg : pyobj;
  inpatient_le_state : pyobj;
  outpatient_le_apc : pyobj;
  outpatient_le_state : pyobj
}.

Section Ranking.
Context `{NumericLib}.

(** Line 111. *)
Definition provider_ids : list Z := range 520000 520100.

(** Lines 117-124: the encoded procedure, the encoded state, the model. *)
Definition encode_request (a : artifacts) (service_type procedure state : string)
    : result (Z * Z * pyobj) :=
  if String.eqb service_type "Inpatient" then
    encoded_procedure ← transform (inpatient_le_drg a) [procedure] ≫= getitem0;
    encoded_state ← transform (inpatient_le_state a) [state] ≫= getitem0;
    mret (encoded_procedure, encoded_state, inpatient_model a)
  else
    encoded_procedure ← transform (outpatient_le_apc a) [procedure] ≫= getitem0;
    encoded_state ← transform (outpatient_le_state a) [state] ≫= getitem0;
    mret (encoded_procedure, encoded_state, outpatient_model a).

(** Lines 127-133: [input_data]. *)
Definition build_input_data (encoded_procedure encoded_state : Z)
    : result (DataFrame CandidateRow) :=
  pd_DataFrame
    (replicate (length provider_ids) encoded_procedure)
    provider_ids
    (replicate (length provider_ids) encoded_state)
    (replicate (length provider_ids) 100%Z)
    (replicate (length provider_ids) 15000%Z).

(** Line 139: [input_data_sorted], before [reset_index]. *)
Definition sort_by_cost (input_data : DataFrame (CandidateRow * cost))
    : DataFrame (CandidateRow * cost) :=
  sort_values snd input_data.

(** Line 142: [df["Rank"] = df.index + 1]. *)
Definition assign_rank {A} (df : DataFrame A) : DataFrame (A * Z) :=
  (λ '(i, r), (i, (r, (i + 1)%Z))) <$> df.

(** Line 145: [df[["Rank", "Provider_Id", "Average_Total_Payments"]]]. *)
Definition select_columns (df : DataFrame (CandidateRow * cost * Z))
    : DataFrame ResultRow :=
  (λ '(i, (r, c, k)), (i, Build_ResultRow _ k (Provider_Id r) c)) <$> df.

(** Lines 136-145: from [input_data] to [top_3_hospitals]. *)
Definition rank_providers (model : pyobj) (input_data : DataFrame CandidateRow)
    : result (DataFrame ResultRow) :=
  predicted ← predict model input_data;
  input_data ← set_column input_data predicted;
  let input_data_sorted := reset_index (sort_by_cost input_data) in
  let input_data_sorted := assign_rank input_data_sorted in
  mret (select_columns (df_head 3 input_data_sorted)).

(** The candidate table of a request (lines 117-133). *)
Definition candidate_table (a : artifacts) (service_type procedure state : string)
    : result (DataFrame CandidateRow) :=
  '(encoded_procedure, encoded_state, _) ←
    encode_request a service_type procedure state;
  build_input_data encoded_procedure encoded_state.

(** The computation inside [try] (lines 116-145). *)
Definition rank_top3 (a : artifacts) (service_type procedure state : string)
    : result (DataFrame ResultRow) :=
  '(encoded_procedure, encoded_state, model) ←
    encode_request a service_type procedure state;
  input_data ← build_input_data encoded_procedure encoded_state;
  rank_providers model input_data.

(** [except Exception]: every instance of [exc]. *)
Definition is_Exception (e : exc) : bool := true.

(** The [try] statement under the "Find Best Hospitals" button
    (lines 115-152). *)
Definition find_best_hospitals (a : artifacts)
    (service_type procedure state : string) : St (DataFrame ResultRow) unit :=
  try_except
    (top_3_hospitals ← lift (rank_top3 a service_type procedure state);
     st_write "### 🏆 Top 3 Best Hospitals (Lowest Cost First)";;
     st_dataframe top_3_hospitals)
    is_Exception
    (λ e, st_error ("⚠️ Error: " ++ exc_str e)).

(** [main_app]; [service_type], [procedure] and [state] are what the three
    select boxes hold, [find_clicked] what the "Find Best Hospitals" button
    returns. *)
Definition main_app (fs : gmap string file)
    (service_type procedure state : string) (find_clicked : bool)
    : St (DataFrame ResultRow) unit :=
  st_set_page_config "MediRank - Best Hospitals Finder" "🏥";;
  st_title "🏥 MediRank - Best Hospitals Finder";;
  username ← session_get "username";
  st_write ("Welcome, **" ++ py_str username ++ "**!");;
  '(inpatient_model, outpatient_model) ← load_models fs;
  '(inpatient_le_drg, inpatient_le_state, outpatient_le_apc, outpatient_le_state) ←
    load_encoders fs;
  match inpatient_model, outpatient_model, inpatient_le_drg,
        inpatient_le_state, outpatient_le_apc, outpatient_le_state with
  | Some im, Some om, Some ild, Some ils, Some ola, Some ols =>
      let a := Build_artifacts _ im om ild ils ola ols in
      st_sidebar_button "🔓 Logout";;
      '(procedure_options, state_options) ← lift (
        if String.eqb service_type "Inpatient" then
          p ← classes_ ild; s ← classes_ ils; mret (p, s)
        else
          p ← classes_ ola; s ← classes_ ols; mret (p, s));
      if find_clicked then find_best_hospitals a service_type procedure state
      else mret ()
  | _, _, _, _, _, _ =>
      st_error "⚠️ Unable to load models or encoders. Please check the files and try again."
  end.

(** The script body (lines 156-162). *)
Definition script (fs : gmap string file) (username password : string)
    (login_clicked : bool) (service_type procedure state : string)
    (find_clicked : bool) : St (DataFrame ResultRow) unit :=
  initialize_session_state;;
  logged_in ← session_get "logged_in";
  if negb (truthy logged_in) then login_page username password login_clicked
  else main_app fs service_type procedure state find_clicked.
End Ranking.

(** ** A sort that meets the contract, with integer costs *)

(** Compare (key, position) pairs by key, ties by ascending position. *)
Definition ties_ascending : relation (Z * nat) :=
  λ p q, (p.1 < q.1)%Z ∨ (p.1 = q.1 ∧ p.2 ≤ q.2).

Global Instance ties_ascending_dec : RelDecision ties_ascending.
Proof. intros p q. unfold ties_ascending. apply _. Defined.

Definition argsort_by (R : relation (Z * nat)) `{!RelDecision R} (keys : list Z)
    : list nat :=
  (merge_sort R (zip keys (seq 0 (length keys)))).*2.

Definition stable_lib : NumericLib :=
  {| cost := Z; cost_le := Z.le; argsort := argsort_by ties_ascending |}.

(** ** Sample artifacts *)

Section Samples.
Context (lib : NumericLib) (price : CandidateRow → cost).

Definition sample_model : pyobj := Regressor {| model_predict := λ rows, Ok (price <$> rows) |}.
Definition sample_le_drg : pyobj :=
  Encoder {| le_classes := ["DRG-001"; "DRG-002"; "DRG-003"] |}.
Definition sample_le_state : pyobj :=
  Encoder {| le_classes := ["AL"; "CA"; "TX"] |}.
Definition sample_le_apc : pyobj :=
  Encoder {| le_classes := ["APC-0012"; "APC-0013"] |}.

Definition sample_artifacts : artifacts :=
  {| inpatient_model := sample_model;
     outpatient_model := sample_model;
     inpatient_le_drg := sample_le_drg;
     inpatient_le_state := sample_le_state;
     outpatient_le_apc := sample_le_apc;
     outpatient_le_state := sample_le_state |}.

Definition sample_fs : gmap string file :=
  <["inpatient_model.pkl" := Pickle sample_model]> (
  <["outpatient_model.pkl" := Pickle sample_model]> (
  <["le_drg.pkl" := Pickle sample_le_drg]> (
  <["le_state.pkl" := Pickle sample_le_state]> (
  <["le_drg_outpatient.pkl" := Pickle sample_le_apc]> (
  <["le_state_outpatient.pkl" := Pickle sample_le_state]> ∅))))).
End Samples.

(** A model that prices every provider alike. *)
Definition flat_price : CandidateRow → Z := λ _, 9500%Z.

(** A model whose price depends on the provider. *)
Definition varied_price : CandidateRow → Z :=
  λ r, (9000 + 100 * ((Provider_Id r * 37) `mod` 11))%Z.

(** A session right after the first script run, and one after a login. *)
Definition fresh_session : gmap string value :=
  <["username" := PyNone]> (<["logged_in" := PyBool false]> ∅).
Definition admin_session : gmap string value :=
  <["username" := PyStr "admin"]> (<["logged_in" := PyBool true]> ∅).

(** ** What the loaders find on disk *)

Definition model_paths : list string :=
  ["inpatient_model.pkl"; "outpatient_model.pkl"].

Definition encoder_paths : list string :=
  ["le_drg.pkl"; "le_state.pkl"; "le_drg_outpatient.pkl"; "le_state_outpatient.pkl"].

(** [path] does not exist. *)
Definition absent `{NumericLib} (fs : gmap string file) (path : string) : Prop :=
  fs !! path = None.

(** [path] holds a pickle. *)
Definition loadable `{NumericLib} (fs : gmap string file) (path : string) : Prop :=
  ∃ obj, fs !! path = Some (Pickle obj).

(** The six files hold the objects of [a]. *)
Definition loaded `{NumericLib} (fs : gmap string file) (a : artifacts) : Prop :=
  fs !! "inpatient_model.pkl" = Some (Pickle (inpatient_model a))
  ∧ fs !! "outpatient_model.pkl" = Some (Pickle (outpatient_model a))
  ∧ fs !! "le_drg.pkl" = Some (Pickle (inpatient_le_drg a))
  ∧ fs !! "le_state.pkl" = Some (Pickle (inpatient_le_state a))
  ∧ fs !! "le_drg_outpatient.pkl" = Some (Pickle (outpatient_le_apc a))
  ∧ fs !! "le_state_outpatient.pkl" = Some (Pickle (outpatient_le_state a)).

(** ** Session consistency *)

Definition logged_in_set (ss : gmap string value) : Prop :=
  ss !! "logged_in" = Some (PyBool true).

Definition username_set (ss : gmap string value) : Prop :=
  ∃ u, ss !! "username" = Some (PyStr u).

(** [logged_in] is true exactly when [username] is not [None]. *)
Definition session_consistent (ss : gmap string value) : Prop :=
  logged_in_set ss ↔ username_set ss.

(** The states a session goes through: it starts with an empty
    [st.session_state], and every operation of the script may run on it. *)
Inductive reachable `{NumericLib} : app (DataFrame ResultRow) → Prop :=
  | reach_new : reachable (App ∅ [])
  | reach_initialize s :
      reachable s → reachable (initialize_session_state s).2
  | reach_login s username password login_clicked :
      reachable s → reachable (login_page username password login_clicked s).2
  | reach_logout s :
      reachable s → reachable (logout s).2
  | reach_main_app s fs service_type procedure state find_clicked :
      reachable s →
      reachable (main_app fs service_type procedure state find_clicked s).2.

(** * Properties *)

(** ** The state monad *)

Ltac run_st :=
  unfold mbind, mret, St_bind, St_ret, st_title, st_write, st_success, st_error,
    st_set_page_config, st_sidebar_button, st_dataframe, draw, session_set,
    session_contains, session_get, st_rerun, raise; simpl.

(** [m] leaves [st.session_state] as it found it, however it ends. *)
Definition keeps_session {T A} (m : St T A) : Prop :=
  ∀ s, session_state (m s).2 = session_state s.

Section Frame.
Context {T : Type}.

Lemma keeps_session_ret {A} (a : A) : keeps_session (mret a : St T A).
Proof. by intros s. Qed.

Lemma keeps_session_bind {A B} (m : St T A) (f : A → St T B) :
  keeps_session m → (∀ a, keeps_session (f a)) → keeps_session (m ≫= f).
Proof.
  intros Hm Hf s. specialize (Hm s). unfold mbind, St_bind.
  destruct (m s) as [[a| |] s']; simpl in *; [|done..].
  by rewrite Hf.
Qed.

Lemma keeps_session_draw (e : element T) : keeps_session (draw e).
Proof. by intros s. Qed.

Lemma keeps_session_raise {A} (e : exc) : keeps_session (raise e : St T A).
Proof. by intros s. Qed.

Lemma keeps_session_lift {A} (r : result A) : keeps_session (lift r : St T A).
Proof. by destruct r; intros s. Qed.

Lemma keeps_session_get key : keeps_session (session_get key : St T value).
Proof. intros s. unfold session_get. by destruct (_ !! _). Qed.

Lemma keeps_session_try {A} (body : St T A) catches handler :
  keeps_session body → (∀ e, keeps_session (handler e)) →
  keeps_session (try_except body catches handler).
Proof.
  intros Hb Hh s. specialize (Hb s). unfold try_except.
  destruct (body s) as [[a|e|] s']; simpl in *; [done| |done].
  destruct (catches e); [|done]. by rewrite Hh.
Qed.
End Frame.

Create HintDb frame.
#[export] Hint Resolve keeps_session_ret keeps_session_bind keeps_session_draw
  keeps_session_raise keeps_session_lift keeps_session_get keeps_session_try
  : frame.

(** ** Login system *)

Lemma credentials_lookup (username password : string) :
  USER_CREDENTIALS !! username = Some password ↔
  (username = "admin" ∧ password = "password123")
  ∨ (username = "user" ∧ password = "medi123").
Proof.
  unfold USER_CREDENTIALS. rewrite !lookup_insert_Some, lookup_empty.
  split.
  - intros [[<- <-]|[_ [[<- <-]|[_ ?]]]]; [by left|by right|done].
  - intros [[-> ->]|[-> ->]]; [by left|]. right. split; [done|]. by left.
Qed.

Lemma authenticate_lookup (username password : string) :
  authenticate username password = true ↔
  USER_CREDENTIALS !! username = Some password.
Proof.
  unfold authenticate.
  rewrite andb_true_iff, !bool_decide_eq_true. split; [tauto|]. eauto.
Qed.

(** C2: [authenticate] answers true exactly for the pairs of the credential
    store, compared as whole strings; every other pair gets false. *)
Theorem authenticate_exact (username password : string) :
  (authenticate username password = true ↔
     USER_CREDENTIALS !! username = Some password)
  ∧ (authenticate username password = true ↔
       (username = "admin" ∧ password = "password123")
       ∨ (username = "user" ∧ password = "medi123"))
  ∧ (authenticate username password = false ↔
       USER_CREDENTIALS !! username ≠ Some password)
  ∧ authenticate "Admin" "password123" = false
  ∧ authenticate "admin" "Password123" = false.
Proof.
  split_and!; [apply authenticate_lookup| | |done..].
  - by rewrite authenticate_lookup, credentials_lookup.
  - rewrite <-authenticate_lookup. by destruct (authenticate _ _).
Qed.

Section LoginProperties.
Context {T : Type}.
Implicit Types s : app T.

Lemma login_page_session s username password login_clicked :
  session_state (login_page username password login_clicked s).2 =
  if login_clicked && authenticate username password
  then <["username" := PyStr username]>
         (<["logged_in" := PyBool true]> (session_state s))
  else session_state s.
Proof.
  unfold login_page. destruct login_clicked; [|done].
  by destruct (authenticate username password).
Qed.

Lemma logout_session s :
  session_state (logout s).2 =
  <["username" := PyNone]> (<["logged_in" := PyBool false]> (session_state s)).
Proof. done. Qed.

Lemma initialize_session s :
  session_state (initialize_session_state s).2 =
  let ss := if bool_decide (is_Some (session_state s !! "logged_in"))
            then session_state s
            else <["logged_in" := PyBool false]> (session_state s) in
  if bool_decide (is_Some (ss !! "username")) then ss
  else <["username" := PyNone]> ss.
Proof.
  unfold initialize_session_state. run_st.
  destruct (bool_decide (is_Some (session_state s !! "logged_in"))); simpl;
    by case_bool_decide.
Qed.

(** C3: a "Login" click with matching credentials stops the run with
    [logged_in] true and [username] the name typed; with any other pair the
    session dictionary is the one the run started with. *)
Theorem login_sets_or_keeps s username password :
  let r := login_page username password true s in
  if authenticate username password then
    r.1 = Rerun
    ∧ session_state r.2 =
        <["username" := PyStr username]>
          (<["logged_in" := PyBool true]> (session_state s))
    ∧ session_state r.2 !! "logged_in" = Some (PyBool true)
    ∧ session_state r.2 !! "username" = Some (PyStr username)
  else
    r.1 = Done () ∧ session_state r.2 = session_state s.
Proof.
  unfold login_page. destruct (authenticate username password); simpl; [|done].
  split_and!; [done..| |].
  - by rewrite lookup_insert_ne, lookup_insert_eq.
  - by rewrite lookup_insert_eq.
Qed.

(** C4: whatever the session held, after [logout] it holds
    [logged_in = False] and [username = None]. *)
Theorem logout_resets s :
  session_state (logout s).2 !! "logged_in" = Some (PyBool false)
  ∧ session_state (logout s).2 !! "username" = Some PyNone
  ∧ session_state (logout s).2 =
      <["username" := PyNone]> (<["logged_in" := PyBool false]> (session_state s)).
Proof.
  rewrite logout_session. split_and!; [|by rewrite lookup_insert_eq|done].
  by rewrite lookup_insert_ne, lookup_insert_eq.
Qed.
End LoginProperties.

(** ** The ranking page and the session *)

Ltac frame_step :=
  match goal with
  | |- keeps_session (match ?x with _ => _ end) => destruct x
  | |- keeps_session (_ ≫= _) => apply keeps_session_bind; [|intros ?]
  | |- keeps_session (try_except _ _ _) => apply keeps_session_try; [|intros ?]
  | |- keeps_session _ => solve [auto with frame]
  end.

Section MainAppFrame.
Context `{NumericLib}.

Lemma load_models_keeps {T} fs : keeps_session (load_models (T:=T) fs).
Proof. unfold load_models, st_error. repeat frame_step. Qed.

Lemma load_encoders_keeps {T} fs : keeps_session (load_encoders (T:=T) fs).
Proof. unfold load_encoders, st_error. repeat frame_step. Qed.

Lemma main_app_keeps fs service_type procedure state find_clicked :
  keeps_session (main_app fs service_type procedure state find_clicked).
Proof.
  unfold main_app, find_best_hospitals, st_set_page_config, st_title, st_write,
    st_error, st_sidebar_button, st_dataframe.
  pose proof (load_models_keeps (T:=DataFrame ResultRow) fs).
  pose proof (load_encoders_keeps (T:=DataFrame ResultRow) fs).
  repeat frame_step.
Qed.

Lemma initialize_twice {T} (s : app T) :
  session_state (initialize_session_state (initialize_session_state s).2).2
  = session_state (initialize_session_state s).2.
Proof.
  rewrite (initialize_session (initialize_session_state s).2).
  rewrite initialize_session. simpl.
  repeat case_bool_decide; try done;
    repeat match goal with
    | Hn : ¬ is_Some _ |- _ =>
        destruct Hn;
        rewrite ?lookup_insert_eq, ?(lookup_insert_ne _ "username" "logged_in"),
          ?lookup_insert_eq by done;
        by eauto
    end.
Qed.

(** C10: a run of the ranking page, whatever the files, the selections and
    the way it ends, leaves [st.session_state] as it found it; so does
    [initialize_session_state] once the two fields exist, and a login
    attempt that is not a click with matching credentials. *)
Theorem main_app_session_unchanged fs service_type procedure state find_clicked s :
  session_state (main_app fs service_type procedure state find_clicked s).2
  = session_state s
  ∧ session_state (main_app fs service_type procedure state find_clicked s).2
      !! "logged_in" = session_state s !! "logged_in"
  ∧ session_state (main_app fs service_type procedure state find_clicked s).2
      !! "username" = session_state s !! "username"
  ∧ session_state (initialize_session_state (initialize_session_state s).2).2
    = session_state (initialize_session_state s).2
  ∧ ∀ username password login_clicked,
      session_state (login_page username password login_clicked s).2
      = if login_clicked && authenticate username password
        then <["username" := PyStr username]>
               (<["logged_in" := PyBool true]> (session_state s))
        else session_state s.
Proof.
  pose proof (main_app_keeps fs service_type procedure state find_clicked s) as ->.
  split_and!; [done..|apply initialize_twice|].
  intros. apply login_page_session.
Qed.

Lemma consistent_initialize (ss : gmap string value) :
  session_consistent ss →
  session_consistent
    (let ss1 := if bool_decide (is_Some (ss !! "logged_in")) then ss
                else <["logged_in" := PyBool false]> ss in
     if bool_decide (is_Some (ss1 !! "username")) then ss1
     else <["username" := PyNone]> ss1).
Proof.
  unfold session_consistent, logged_in_set, username_set. intros Hc. simpl.
  repeat case_bool_decide;
    rewrite ?lookup_insert_eq, ?(lookup_insert_ne _ "logged_in" "username"),
      ?(lookup_insert_ne _ "username" "logged_in"), ?lookup_insert_eq by done;
    try done.
  - split; [done|]. intros [u Hu].
    destruct Hc as [_ Hc]. rewrite Hc in * by eauto.
    match goal with Hn : ¬ is_Some _ |- _ => destruct Hn; eauto end.
  - split; [|by intros [? ?]]. intros Hl. destruct Hc as [Hc _].
    destruct (Hc Hl) as [u Hu].
    match goal with Hn : ¬ is_Some _ |- _ => destruct Hn; eauto end.
  - split; [done|by intros [? ?]].
Qed.

Lemma consistent_login (ss : gmap string value) username :
  session_consistent
    (<["username" := PyStr username]> (<["logged_in" := PyBool true]> ss)).
Proof.
  unfold session_consistent, logged_in_set, username_set.
  rewrite lookup_insert_eq, lookup_insert_ne, lookup_insert_eq by done.
  split; eauto.
Qed.

Lemma consistent_logout (ss : gmap string value) :
  session_consistent
    (<["username" := PyNone]> (<["logged_in" := PyBool false]> ss)).
Proof.
  unfold session_consistent, logged_in_set, username_set.
  rewrite lookup_insert_eq, lookup_insert_ne, lookup_insert_eq by done.
  split; [done|by intros [? ?]].
Qed.

(** C9: in a new session and after every operation on it (initialization,
    a login attempt of either outcome, logout, a run of the ranking page),
    [logged_in] is true exactly when [username] holds a name. *)
Theorem session_always_consistent s :
  reachable s → session_consistent (session_state s).
Proof.
  induction 1 as [|s _ IH|s u p c _ IH|s _ IH|s fs st p q c _ IH].
  - unfold session_consistent, logged_in_set, username_set. simpl.
    rewrite !lookup_empty. split; [done|by intros [? ?]].
  - rewrite initialize_session. by apply consistent_initialize.
  - rewrite login_page_session.
    destruct (c && authenticate u p); [apply consistent_login|done].
  - rewrite logout_session. apply consistent_logout.
  - by rewrite main_app_keeps.
Qed.
End MainAppFrame.

(** ** Artifact loaders *)

Section LoaderProperties.
Context `{NumericLib} {T : Type}.
Implicit Types (fs : gmap string file) (s : app T).

Lemma load_pickle_absent fs path :
  absent fs path →
  load_pickle fs path
  = Err (Exc FileNotFoundError ("No such file or directory: " ++ path)).
Proof. unfold absent, load_pickle. by intros ->. Qed.

Lemma load_pickle_loadable fs path obj :
  fs !! path = Some (Pickle obj) → load_pickle fs path = Ok obj.
Proof. unfold load_pickle. by intros ->. Qed.

Ltac load_cases :=
  repeat match goal with
  | Hl : Forall (loadable _) (_ :: _) |- _ =>
      apply Forall_cons in Hl as [[? ?] ?]
  end;
  unfold load_models, load_encoders;
  repeat match goal with
  | Hl : _ !! _ = Some (Pickle _) |- _ =>
      rewrite (load_pickle_loadable _ _ _ Hl); clear Hl
  | Ha : absent _ _ |- _ => rewrite (load_pickle_absent _ _ Ha); clear Ha
  end.

(** C7, as amended: when the first file a loader cannot load is one that
    does not exist, the loader returns the tuple of [None]s, shows its
    "not found" error, and raises nothing. *)
Theorem missing_file_gives_sentinel fs s :
  (∀ before path after,
     model_paths = before ++ path :: after →
     Forall (loadable fs) before → absent fs path →
     load_models fs s
     = (Done (None, None),
        App (session_state s)
          (page s ++ [Error "❌ Model files not found. Please check the file paths."])))
  ∧ (∀ before path after,
       encoder_paths = before ++ path :: after →
       Forall (loadable fs) before → absent fs path →
       load_encoders fs s
       = (Done (None, None, None, None),
          App (session_state s)
            (page s ++ [Error "❌ Encoder files not found. Please check the file paths."]))).
Proof.
  split; intros before path after Hp Hb Ha.
  - unfold model_paths in Hp.
    destruct before as [|? [|? [|? ?]]]; simplify_eq/=; by load_cases.
  - unfold encoder_paths in Hp.
    destruct before as [|? [|? [|? [|? [|? ?]]]]]; simplify_eq/=; by load_cases.
Qed.
End LoaderProperties.

(** ** Errors inside a ranking request *)

Section RequestErrors.
Context `{NumericLib}.
Implicit Types (a : artifacts) (s : app (DataFrame ResultRow)).

Lemma find_best_hospitals_run a service_type procedure state s :
  find_best_hospitals a service_type procedure state s =
  match rank_top3 a service_type procedure state with
  | Ok top_3_hospitals =>
      (Done (),
       App (session_state s)
         ((page s ++ [Write "### 🏆 Top 3 Best Hospitals (Lowest Cost First)"])
          ++ [Dataframe top_3_hospitals]))
  | Err e =>
      (Done (), App (session_state s) (page s ++ [Error ("⚠️ Error: " ++ exc_str e)]))
  end.
Proof.
  unfold find_best_hospitals, try_except. run_st.
  by destruct (rank_top3 _ _ _ _).
Qed.

(** The objects loaded as encoders are encoders. *)
Definition encoders_ok a : Prop :=
  (∃ le, inpatient_le_drg a = Encoder le)
  ∧ (∃ le, inpatient_le_state a = Encoder le)
  ∧ (∃ le, outpatient_le_apc a = Encoder le)
  ∧ (∃ le, outpatient_le_state a = Encoder le).

Lemma main_app_loaded fs a service_type procedure state s v :
  loaded fs a → encoders_ok a → session_state s !! "username" = Some v →
  main_app fs service_type procedure state true s =
  find_best_hospitals a service_type procedure state
    (App (session_state s)
       ((((page s ++ [PageConfig "MediRank - Best Hospitals Finder" "🏥"])
          ++ [Title "🏥 MediRank - Best Hospitals Finder"])
         ++ [Write ("Welcome, **" ++ py_str v ++ "**!")])
        ++ [SidebarButton "🔓 Logout"])).
Proof.
  intros (H1 & H2 & H3 & H4 & H5 & H6) ([l1 E1] & [l2 E2] & [l3 E3] & [l4 E4]) Hu.
  destruct a as [im om ild ils ola ols]; simpl in *; subst.
  unfold main_app, load_models, load_encoders, try_except.
  rewrite !(load_pickle_loadable _ _ _ H1), !(load_pickle_loadable _ _ _ H2),
    !(load_pickle_loadable _ _ _ H3), !(load_pickle_loadable _ _ _ H4),
    !(load_pickle_loadable _ _ _ H5), !(load_pickle_loadable _ _ _ H6).
  run_st. rewrite Hu. simpl. by destruct (String.eqb service_type "Inpatient").
Qed.

(** C8: an exception raised while encoding the labels, building the table
    or predicting makes the computation under [try] end with it; the [try]
    statement then ends normally, with one [st.error] that carries the
    exception's message, and so does the page that runs it. *)
Theorem request_errors_are_shown a service_type procedure state s :
  (∀ e, encode_request a service_type procedure state = Err e →
        rank_top3 a service_type procedure state = Err e)
  ∧ (∀ ep es model e,
       encode_request a service_type procedure state = Ok (ep, es, model) →
       build_input_data ep es = Err e →
       rank_top3 a service_type procedure state = Err e)
  ∧ (∀ ep es model input_data e,
       encode_request a service_type procedure state = Ok (ep, es, model) →
       build_input_data ep es = Ok input_data →
       predict model input_data = Err e →
       rank_top3 a service_type procedure state = Err e)
  ∧ (∀ e, rank_top3 a service_type procedure state = Err e →
       find_best_hospitals a service_type procedure state s
       = (Done (),
          App (session_state s) (page s ++ [Error ("⚠️ Error: " ++ exc_str e)])))
  ∧ (∀ e, (find_best_hospitals a service_type procedure state s).1 ≠ Raised e)
  ∧ (∀ fs v e,
       loaded fs a → encoders_ok a → session_state s !! "username" = Some v →
       rank_top3 a service_type procedure state = Err e →
       let r := main_app fs service_type procedure state true s in
       r.1 = Done ()
       ∧ session_state r.2 = session_state s
       ∧ last (page r.2) = Some (Error ("⚠️ Error: " ++ exc_str e))).
Proof.
  split_and!.
  - intros e He. unfold rank_top3. by rewrite He.
  - intros ep es model e He Hb. unfold rank_top3. rewrite He.
    cbv beta iota delta [mbind result_bind]. by rewrite Hb.
  - intros ep es model df e He Hb Hp. unfold rank_top3. rewrite He.
    cbv beta iota delta [mbind result_bind]. rewrite Hb.
    unfold rank_providers. by rewrite Hp.
  - intros e He. by rewrite find_best_hospitals_run, He.
  - intros e. rewrite find_best_hospitals_run.
    by destruct (rank_top3 _ _ _ _).
  - intros fs v e Hl Ho Hu He. simpl.
    rewrite (main_app_loaded _ _ _ _ _ _ _ Hl Ho Hu), find_best_hospitals_run, He.
    simpl. by rewrite last_snoc.
Qed.
End RequestErrors.

(** ** Lists taken by position *)

Section TakeByPosition.
Context {A : Type}.
Implicit Types l : list A.

Lemma omap_lookup_seq_app l1 l2 :
  omap ((l1 ++ l2) !!.) (seq (length l1) (length l2)) = l2.
Proof.
  revert l1. induction l2 as [|x l2 IH]; intros l1; [done|].
  simpl. rewrite list_lookup_middle by done. f_equal.
  specialize (IH (l1 ++ [x])).
  rewrite <-(assoc_L (++)), length_app, Nat.add_1_r in IH. done.
Qed.

Lemma omap_lookup_seq l : omap (l !!.) (seq 0 (length l)) = l.
Proof. apply (omap_lookup_seq_app [] l). Qed.

Lemma fmap_omap_lookup {B} (f : A → B) l (positions : list nat) :
  f <$> omap (l !!.) positions = omap ((f <$> l) !!.) positions.
Proof.
  induction positions as [|i positions IH]; [done|].
  simpl. rewrite list_lookup_fmap.
  destruct (l !! i); simpl; [|apply IH]. f_equal. apply IH.
Qed.

Lemma omap_lookup_pairs (keys : list A) (l : list (A * nat)) :
  Forall (λ p, keys !! p.2 = Some p.1) l → omap (keys !!.) l.*2 = l.*1.
Proof.
  induction 1 as [|[k i] l Hk _ IH]; [done|].
  simpl in *. rewrite Hk. simpl. f_equal. apply IH.
Qed.

Lemma Sorted_take (R : relation A) n l : Sorted R l → Sorted R (take n l).
Proof.
  intros Hs. revert n. induction Hs as [|x l Hs IH Hd]; intros [|n]; simpl;
    [constructor..|].
  constructor; [done|].
  destruct Hd; destruct n; simpl; constructor; done.
Qed.
End TakeByPosition.

(** ** The sample sort meets the contract *)

Global Instance ties_ascending_total : Total ties_ascending.
Proof. intros [k1 i1] [k2 i2]. unfold ties_ascending. simpl. lia. Qed.

Lemma argsort_by_contract (R : relation (Z * nat)) `{!RelDecision R, !Total R} :
  (∀ p q, R p q → (p.1 ≤ q.1)%Z) →
  NumericContract {| cost := Z; cost_le := Z.le; argsort := argsort_by R |}.
Proof.
  intros HR. split; simpl; intros keys; unfold argsort_by.
  - rewrite merge_sort_Permutation. by rewrite snd_zip by (by rewrite length_seq).
  - rewrite omap_lookup_pairs.
    + eapply Sorted_fmap, Sorted_merge_sort; [|done]. apply HR.
    + rewrite merge_sort_Permutation. apply Forall_lookup_2.
      intros j [k i] (k' & i' & ? & Hk & [-> _]%lookup_seq)%lookup_zip_with_Some.
      by simplify_eq/=.
Qed.

Lemma stable_lib_contract : NumericContract stable_lib.
Proof.
  apply (argsort_by_contract ties_ascending).
  intros p q. unfold ties_ascending. lia.
Qed.

(** ** What a valid ranking request is *)

Section Requests.
Context `{NumericLib}.

(** The encoders and the model of a service type (lines 117-124). *)
Definition procedure_encoder (a : artifacts) (service_type : string) : pyobj :=
  if String.eqb service_type "Inpatient" then inpatient_le_drg a
  else outpatient_le_apc a.

Definition state_encoder (a : artifacts) (service_type : string) : pyobj :=
  if String.eqb service_type "Inpatient" then inpatient_le_state a
  else outpatient_le_state a.

Definition selected_model (a : artifacts) (service_type : string) : pyobj :=
  if String.eqb service_type "Inpatient" then inpatient_model a
  else outpatient_model a.

(** The service type is one of the two offered, and the labels are among
    those its encoders were trained on. *)
Definition valid_request (a : artifacts) (service_type procedure state : string)
    : Prop :=
  (service_type = "Inpatient" ∨ service_type = "Outpatient")
  ∧ ∃ le_procedure le_state,
      procedure_encoder a service_type = Encoder le_procedure
      ∧ state_encoder a service_type = Encoder le_state
      ∧ procedure ∈ le_classes le_procedure
      ∧ state ∈ le_classes le_state.

(** The model answers every table with one cost per row. *)
Definition model_ok (obj : pyobj) : Prop :=
  ∃ m, obj = Regressor m
       ∧ ∀ rows, ∃ costs, model_predict m rows = Ok costs
                          ∧ length costs = length rows.

(** The row of [input_data] for one provider. *)
Definition candidate_row (encoded_procedure encoded_state provider_id : Z)
    : CandidateRow :=
  {| Procedure := encoded_procedure;
     Provider_Id := provider_id;
     Provider_State := encoded_state;
     Total_Discharge := 100;
     Avg_covered_charges := 15000 |}.
End Requests.

(** ** Frames *)

Section FrameLemmas.
Context `{NumericLib}.

Lemma pd_DataFrame_constant_columns (ids : list Z) (a b c d : Z) :
  pd_DataFrame (replicate (length ids) a) ids (replicate (length ids) b)
    (replicate (length ids) c) (replicate (length ids) d)
  = Ok (zip (RangeIndex (length ids))
          ((λ id, Build_CandidateRow a id b c d) <$> ids)).
Proof.
  unfold pd_DataFrame. simpl.
  rewrite !length_replicate, !Nat.eqb_refl. simpl. do 2 f_equal.
  rewrite zip_with_replicate_l by done.
  rewrite !zip_with_replicate_r_eq
    by (rewrite ?length_zip_with, ?length_fmap, ?length_replicate; lia).
  by rewrite <-!list_fmap_compose.
Qed.

Lemma set_column_ok {A B} (df : DataFrame A) (values : list B) :
  length values = length df →
  set_column df values = Ok (zip_with (λ '(i, r) v, (i, (r, v))) df values).
Proof. intros Hl. unfold set_column. by rewrite Hl, Nat.eqb_refl. Qed.

Lemma set_column_rows {A B} (df : DataFrame A) (values : list B) :
  length values = length df →
  (λ r, r.2.1) <$> zip_with (λ '(i, r) v, (i, (r, v))) df values = df.*2.
Proof.
  revert values. induction df as [|[i r] df IH]; intros [|v values] Hl;
    simplify_eq/=; [done|]. f_equal. by apply IH.
Qed.

Lemma set_column_values {A B} (df : DataFrame A) (values : list B) :
  length values = length df →
  (λ r, r.2.2) <$> zip_with (λ '(i, r) v, (i, (r, v))) df values = values.
Proof.
  revert values. induction df as [|[i r] df IH]; intros [|v values] Hl;
    simplify_eq/=; [done|]. f_equal. by apply IH.
Qed.

Lemma reset_index_rows {A} (df : DataFrame A) : (reset_index df).*2 = df.*2.
Proof.
  unfold reset_index, RangeIndex. apply snd_zip.
  rewrite length_seqZ, length_fmap. lia.
Qed.

Lemma reset_index_labels {A} (df : DataFrame A) :
  (reset_index df).*1 = RangeIndex (length df).
Proof.
  unfold reset_index, RangeIndex. apply fst_zip.
  rewrite length_seqZ, length_fmap. lia.
Qed.

Lemma top_ranks n (df : DataFrame (CandidateRow * cost)) :
  Rank <$> (select_columns (df_head n (assign_rank df))).*2
  = (λ i, (i + 1)%Z) <$> take n df.*1.
Proof.
  revert n. induction df as [|[i [r c]] df IH]; intros [|n]; simpl; [done..|].
  f_equal. apply IH.
Qed.

Lemma top_costs n (df : DataFrame (CandidateRow * cost)) :
  Average_Total_Payments <$> (select_columns (df_head n (assign_rank df))).*2
  = take n (snd <$> df.*2).
Proof.
  revert n. induction df as [|[i [r c]] df IH]; intros [|n]; simpl; [done..|].
  f_equal. apply IH.
Qed.

Lemma top_providers n (df : DataFrame (CandidateRow * cost)) :
  Top_Provider_Id <$> (select_columns (df_head n (assign_rank df))).*2
  = take n ((λ r, Provider_Id r.1) <$> df.*2).
Proof.
  revert n. induction df as [|[i [r c]] df IH]; intros [|n]; simpl; [done..|].
  f_equal. apply IH.
Qed.

Lemma top_length n (df : DataFrame (CandidateRow * cost)) :
  length (select_columns (df_head n (assign_rank df))) = min n (length df).
Proof.
  unfold select_columns, df_head, assign_rank.
  by rewrite length_fmap, length_take, length_fmap.
Qed.

Context `{!NumericContract H}.

Lemma sort_values_perm {A} (key : A → cost) (df : DataFrame A) :
  sort_values key df ≡ₚ df.
Proof.
  unfold sort_values. rewrite argsort_perm, length_fmap.
  by rewrite omap_lookup_seq.
Qed.

Lemma sort_values_sorted {A} (key : A → cost) (df : DataFrame A) :
  Sorted cost_le ((λ r, key r.2) <$> sort_values key df).
Proof.
  unfold sort_values. rewrite fmap_omap_lookup. apply argsort_sorted.
Qed.

Lemma sort_values_length {A} (key : A → cost) (df : DataFrame A) :
  length (sort_values key df) = length df.
Proof. by rewrite sort_values_perm. Qed.
End FrameLemmas.

(** ** The ranking pipeline *)

Section PipelineProperties.
Context `{NumericLib}.
Implicit Types a : artifacts.

Lemma provider_ids_length : length provider_ids = 100.
Proof. done. Qed.

Lemma provider_ids_range : provider_ids = seqZ 520000 100.
Proof. done. Qed.

Lemma encode_label_valid le label :
  label ∈ le_classes le →
  ∃ i, encode_label le label = Ok (Z.of_nat i) ∧ le_classes le !! i = Some label.
Proof.
  intros Hin. unfold encode_label.
  destruct (list_find_elem_of (λ c, c = label) _ _ Hin eq_refl) as [[i c] Hf].
  rewrite Hf. apply list_find_Some in Hf as (Hi & -> & _). eauto.
Qed.

Lemma encode_request_selected a service_type procedure state :
  encode_request a service_type procedure state =
  encoded_procedure ←
    transform (procedure_encoder a service_type) [procedure] ≫= getitem0;
  encoded_state ← transform (state_encoder a service_type) [state] ≫= getitem0;
  mret (encoded_procedure, encoded_state, selected_model a service_type).
Proof.
  unfold encode_request, procedure_encoder, state_encoder, selected_model.
  by destruct (String.eqb service_type "Inpatient").
Qed.

Lemma encode_request_valid a service_type procedure state :
  valid_request a service_type procedure state →
  ∃ le_procedure le_state i j,
    procedure_encoder a service_type = Encoder le_procedure
    ∧ state_encoder a service_type = Encoder le_state
    ∧ le_classes le_procedure !! i = Some procedure
    ∧ le_classes le_state !! j = Some state
    ∧ encode_request a service_type procedure state
      = Ok (Z.of_nat i, Z.of_nat j, selected_model a service_type).
Proof.
  intros (_ & lp & ls & Hp & Hs & Hpin & Hsin).
  destruct (encode_label_valid _ _ Hpin) as (i & Hi & Hli).
  destruct (encode_label_valid _ _ Hsin) as (j & Hj & Hlj).
  exists lp, ls, i, j. split_and!; [done..|].
  rewrite encode_request_selected, Hp, Hs. simpl.
  unfold mbind, result_bind. by rewrite Hi, Hj.
Qed.

Lemma build_input_data_ok (encoded_procedure encoded_state : Z) :
  build_input_data encoded_procedure encoded_state
  = Ok (zip (RangeIndex 100)
          (candidate_row encoded_procedure encoded_state <$> provider_ids)).
Proof.
  unfold build_input_data.
  by rewrite pd_DataFrame_constant_columns, provider_ids_length.
Qed.

Lemma input_data_rows (encoded_procedure encoded_state : Z) :
  (zip (RangeIndex 100)
     (candidate_row encoded_procedure encoded_state <$> provider_ids)).*2
  = candidate_row encoded_procedure encoded_state <$> provider_ids.
Proof. apply snd_zip. by rewrite length_fmap. Qed.

(** C6: for a valid request the candidate table has the index labels
    [0 .. 99] and one row per provider id [520000 .. 520099], in that order;
    each row holds the code of the procedure, the code of the state,
    [Total_Discharge = 100] and [Avg_covered_charges = 15000]. *)
Theorem candidate_table_shape a service_type procedure state :
  valid_request a service_type procedure state →
  ∃ le_procedure le_state i j input_data,
    procedure_encoder a service_type = Encoder le_procedure
    ∧ state_encoder a service_type = Encoder le_state
    ∧ le_classes le_procedure !! i = Some procedure
    ∧ le_classes le_state !! j = Some state
    ∧ candidate_table a service_type procedure state = Ok input_data
    ∧ length input_data = 100
    ∧ input_data.*1 = seqZ 0 100
    ∧ Provider_Id <$> input_data.*2 = seqZ 520000 100
    ∧ NoDup (Provider_Id <$> input_data.*2)
    ∧ (∀ k : nat, k < 100 →
         input_data !! k
         = Some (Z.of_nat k,
                 candidate_row (Z.of_nat i) (Z.of_nat j) (520000 + Z.of_nat k)))
    ∧ Forall (λ r, Procedure r = Z.of_nat i
                   ∧ Provider_State r = Z.of_nat j
                   ∧ Total_Discharge r = 100%Z
                   ∧ Avg_covered_charges r = 15000%Z) input_data.*2.
Proof.
  intros (lp & ls & i & j & Hp & Hs & Hi & Hj & He)%encode_request_valid.
  eexists lp, ls, i, j, _. split_and!; [done..| | | | | | |].
  - unfold candidate_table. rewrite He. apply build_input_data_ok.
  - by rewrite length_zip, length_fmap.
  - apply fst_zip. by rewrite length_fmap.
  - rewrite input_data_rows, <-list_fmap_compose.
    rewrite provider_ids_range. by rewrite (list_fmap_ext _ id) by done.
  - rewrite input_data_rows, <-list_fmap_compose.
    rewrite (list_fmap_ext _ id), list_fmap_id by done.
    rewrite provider_ids_range. apply NoDup_seqZ.
  - intros k Hk. rewrite lookup_zip_with, list_lookup_fmap.
    unfold RangeIndex. rewrite provider_ids_range, !lookup_seqZ_lt by lia.
    done.
  - rewrite input_data_rows. apply Forall_fmap, Forall_true. done.
Qed.
End PipelineProperties.

Section RankingProperties.
Context `{NumericLib} `{!NumericContract H}.
Implicit Types a : artifacts.

Lemma rank_providers_ok model (input_data : DataFrame CandidateRow) costs :
  predict model input_data = Ok costs → length costs = length input_data →
  rank_providers model input_data
  = Ok (select_columns (df_head 3 (assign_rank (reset_index (sort_by_cost
          (zip_with (λ '(i, r) v, (i, (r, v))) input_data costs)))))).
Proof.
  intros Hp Hl. unfold rank_providers. rewrite Hp.
  cbv beta iota delta [mbind result_bind]. by rewrite set_column_ok.
Qed.

Lemma sort_by_cost_perm (input_data : DataFrame (CandidateRow * cost)) :
  sort_by_cost input_data ≡ₚ input_data.
Proof. apply sort_values_perm. Qed.

Lemma sort_by_cost_sorted (input_data : DataFrame (CandidateRow * cost)) :
  Sorted cost_le (snd <$> (sort_by_cost input_data).*2).
Proof.
  rewrite <-list_fmap_compose. apply (sort_values_sorted snd).
Qed.

(** C1: for a valid request and a model that prices every row, the pipeline
    returns three rows, ranked 1, 2, 3, in non-decreasing order of predicted
    cost, for providers of the candidate range; the page shows that table. *)
Theorem rank_top3_three_rows a service_type procedure state :
  valid_request a service_type procedure state →
  model_ok (selected_model a service_type) →
  ∃ top_3_hospitals,
    rank_top3 a service_type procedure state = Ok top_3_hospitals
    ∧ length top_3_hospitals = 3
    ∧ Rank <$> top_3_hospitals.*2 = [1; 2; 3]%Z
    ∧ Sorted cost_le (Average_Total_Payments <$> top_3_hospitals.*2)
    ∧ Forall (λ id, (520000 ≤ id < 520100)%Z)
        (Top_Provider_Id <$> top_3_hospitals.*2)
    ∧ ∀ s, find_best_hospitals a service_type procedure state s
           = (Done (),
              App (session_state s)
                ((page s
                  ++ [Write "### 🏆 Top 3 Best Hospitals (Lowest Cost First)"])
                 ++ [Dataframe top_3_hospitals])).
Proof.
  intros (lp & ls & i & j & _ & _ & _ & _ & He)%encode_request_valid
    (m & Hm & Hpredict).
  set (input_data := zip (RangeIndex 100)
         (candidate_row (Z.of_nat i) (Z.of_nat j) <$> provider_ids)).
  destruct (Hpredict input_data.*2) as (costs & Hcosts & Hlen).
  assert (length input_data = 100) as Hn
    by (unfold input_data; by rewrite length_zip, length_fmap).
  rewrite length_fmap in Hlen.
  assert (rank_top3 a service_type procedure state
          = Ok (select_columns (df_head 3 (assign_rank (reset_index (sort_by_cost
                  (zip_with (λ '(i, r) v, (i, (r, v))) input_data costs)))))))
    as Hrun.
  { unfold rank_top3. rewrite He. cbv beta iota delta [mbind result_bind].
    rewrite build_input_data_ok. apply rank_providers_ok; [|done].
    rewrite Hm. apply Hcosts. }
  set (predicted := zip_with (λ '(i, r) v, (i, (r, v))) input_data costs) in *.
  assert (length (sort_by_cost predicted) = 100) as Hsorted.
  { rewrite sort_by_cost_perm. unfold predicted.
    rewrite length_zip_with. lia. }
  eexists. split_and!; [exact Hrun| | | | |].
  - rewrite top_length, <-(length_fmap snd (reset_index _)), reset_index_rows,
      length_fmap, Hsorted. done.
  - by rewrite top_ranks, reset_index_labels, Hsorted.
  - rewrite top_costs, reset_index_rows.
    apply Sorted_take, sort_by_cost_sorted.
  - rewrite top_providers, reset_index_rows. apply Forall_take.
    rewrite sort_by_cost_perm.
    replace ((λ r : CandidateRow * cost, Provider_Id r.1) <$> predicted.*2)
      with (Provider_Id <$> ((λ r, r.2.1) <$> predicted))
      by (by rewrite <-!list_fmap_compose).
    unfold predicted. rewrite (set_column_rows input_data costs Hlen).
    unfold input_data. rewrite input_data_rows, <-list_fmap_compose.
    rewrite (list_fmap_ext _ id), list_fmap_id by done.
    rewrite provider_ids_range. apply Forall_seqZ. lia.
  - intros s. by rewrite find_best_hospitals_run, Hrun.
Qed.
End RankingProperties.

(** * Concrete runs *)

(** ** Files that exist and cannot be loaded *)

Definition locked_fs : gmap string file :=
  <["inpatient_model.pkl" := Denied]> (sample_fs stable_lib varied_price).

Definition corrupt_fs : gmap string file :=
  <["le_state.pkl" := Garbage]> (sample_fs stable_lib varied_price).

(** C7, counterexample: a model file that exists and cannot be opened, or an
    encoder file that is no pickle, makes the loader raise. *)
Lemma unreadable_file_raises :
  locked_fs !! "inpatient_model.pkl" = Some Denied
  ∧ load_models (T:=unit) locked_fs (App ∅ [])
    = (Raised (Exc PermissionError "Permission denied: inpatient_model.pkl"),
       App ∅ [])
  ∧ corrupt_fs !! "le_state.pkl" = Some Garbage
  ∧ load_encoders (T:=unit) corrupt_fs (App ∅ [])
    = (Raised (Exc UnpicklingError "invalid load key"), App ∅ []).
Proof. split_and!; by vm_compute. Qed.

(** ** Runs with a stable sort and a model whose prices vary *)

Section StableSort.
#[local] Existing Instance stable_lib.
#[local] Existing Instance stable_lib_contract.

Definition varied_artifacts : artifacts := sample_artifacts stable_lib varied_price.

Lemma varied_request_valid :
  valid_request varied_artifacts "Outpatient" "APC-0013" "TX".
Proof.
  split; [by right|]. eexists _, _. split_and!; [done..| |].
  - apply list_elem_of_In. simpl. tauto.
  - apply list_elem_of_In. simpl. tauto.
Defined.

Lemma varied_model_ok : model_ok (selected_model varied_artifacts "Outpatient").
Proof.
  eexists. split; [done|]. intros rows. eexists. split; [done|].
  by rewrite length_fmap.
Defined.

Lemma rank_top3_three_rows_witness :
  ∃ top_3_hospitals,
    rank_top3 varied_artifacts "Outpatient" "APC-0013" "TX" = Ok top_3_hospitals
    ∧ length top_3_hospitals = 3
    ∧ Rank <$> top_3_hospitals.*2 = [1; 2; 3]%Z
    ∧ Sorted cost_le (Average_Total_Payments <$> top_3_hospitals.*2)
    ∧ Forall (λ id, (520000 ≤ id < 520100)%Z)
        (Top_Provider_Id <$> top_3_hospitals.*2)
    ∧ ∀ s, find_best_hospitals varied_artifacts "Outpatient" "APC-0013" "TX" s
           = (Done (),
              App (session_state s)
                ((page s
                  ++ [Write "### 🏆 Top 3 Best Hospitals (Lowest Cost First)"])
                 ++ [Dataframe top_3_hospitals])).
Proof.
  exact (rank_top3_three_rows varied_artifacts "Outpatient" "APC-0013" "TX"
           varied_request_valid varied_model_ok).
Defined.

Lemma candidate_table_shape_witness :
  ∃ le_procedure le_state i j input_data,
    procedure_encoder varied_artifacts "Outpatient" = Encoder le_procedure
    ∧ state_encoder varied_artifacts "Outpatient" = Encoder le_state
    ∧ le_classes le_procedure !! i = Some "APC-0013"
    ∧ le_classes le_state !! j = Some "TX"
    ∧ candidate_table varied_artifacts "Outpatient" "APC-0013" "TX"
      = Ok input_data
    ∧ length input_data = 100
    ∧ input_data.*1 = seqZ 0 100
    ∧ Provider_Id <$> input_data.*2 = seqZ 520000 100
    ∧ NoDup (Provider_Id <$> input_data.*2)
    ∧ (∀ k : nat, k < 100 →
         input_data !! k
         = Some (Z.of_nat k,
                 candidate_row (Z.of_nat i) (Z.of_nat j) (520000 + Z.of_nat k)))
    ∧ Forall (λ r, Procedure r = Z.of_nat i
                   ∧ Provider_State r = Z.of_nat j
                   ∧ Total_Discharge r = 100%Z
                   ∧ Avg_covered_charges r = 15000%Z) input_data.*2.
Proof.
  exact (candidate_table_shape varied_artifacts "Outpatient" "APC-0013" "TX"
           varied_request_valid).
Defined.

(** A file system without the outpatient model, and one without the state
    encoder of the outpatient service. *)
Definition fs_without_model : gmap string file :=
  delete "outpatient_model.pkl" (sample_fs stable_lib varied_price).

Definition fs_without_encoder : gmap string file :=
  delete "le_state_outpatient.pkl" (sample_fs stable_lib varied_price).

Lemma missing_file_gives_sentinel_witness :
  load_models (T:=unit) fs_without_model (App admin_session [])
  = (Done (None, None),
     App admin_session
       [Error "❌ Model files not found. Please check the file paths."])
  ∧ load_encoders (T:=unit) fs_without_encoder (App admin_session [])
    = (Done (None, None, None, None),
       App admin_session
         [Error "❌ Encoder files not found. Please check the file paths."]).
Proof.
  split.
  - apply (proj1 (missing_file_gives_sentinel fs_without_model
                    (App admin_session []))
             ["inpatient_model.pkl"] "outpatient_model.pkl" []); [done| |done].
    repeat constructor. by eexists.
  - apply (proj2 (missing_file_gives_sentinel fs_without_encoder
                    (App admin_session []))
             ["le_drg.pkl"; "le_state.pkl"; "le_drg_outpatient.pkl"]
             "le_state_outpatient.pkl" []); [done| |done].
    repeat constructor; by eexists.
Defined.

Definition logged_in_app : app (DataFrame ResultRow) := App admin_session [].

Lemma request_errors_are_shown_witness :
  rank_top3 varied_artifacts "Inpatient" "DRG-999" "CA"
  = Err (Exc ValueError "y contains previously unseen labels: DRG-999")
  ∧ find_best_hospitals varied_artifacts "Inpatient" "DRG-999" "CA" logged_in_app
    = (Done (),
       App admin_session
         [Error "⚠️ Error: y contains previously unseen labels: DRG-999"])
  ∧ (main_app (sample_fs stable_lib varied_price) "Inpatient" "DRG-999" "CA"
       true logged_in_app).1 = Done ()
  ∧ last (page (main_app (sample_fs stable_lib varied_price) "Inpatient"
                  "DRG-999" "CA" true logged_in_app).2)
    = Some (Error "⚠️ Error: y contains previously unseen labels: DRG-999").
Proof.
  pose proof (request_errors_are_shown varied_artifacts "Inpatient" "DRG-999"
                "CA" logged_in_app) as (_ & _ & _ & Hshown & _ & Hpage).
  split; [done|].
  split; [exact (Hshown (Exc ValueError _) eq_refl)|].
  destruct (Hpage (sample_fs stable_lib varied_price) (PyStr "admin")
              (Exc ValueError "y contains previously unseen labels: DRG-999"))
    as (Hdone & _ & Hlast); [| |done|done|by split].
  - by repeat split.
  - repeat split; by eexists.
Defined.

(** A new session, and the same after the first run and a login. *)
Definition new_app : app (DataFrame ResultRow) := App ∅ [].

Definition after_login : app (DataFrame ResultRow) :=
  (login_page "admin" "password123" true (initialize_session_state new_app).2).2.

Lemma session_always_consistent_witness :
  session_consistent (session_state after_login)
  ∧ session_consistent
      (session_state
         (logout
            (main_app (sample_fs stable_lib varied_price) "Inpatient" "DRG-001"
               "CA" true after_login).2).2).
Proof.
  assert (reachable after_login) as Hreach
    by apply reach_login, reach_initialize, reach_new.
  split.
  - by apply session_always_consistent.
  - by apply session_always_consistent, reach_logout, reach_main_app.
Defined.
End StableSort.

(** * Further properties of the script *)

(** ** Session initialization (lines 45-50) *)

(** The dictionary [initialize_session_state] leaves behind. *)
Definition initialized (ss : gmap string value) : gmap string value :=
  let ss1 := if bool_decide (is_Some (ss !! "logged_in")) then ss
             else <["logged_in" := PyBool false]> ss in
  if bool_decide (is_Some (ss1 !! "username")) then ss1
  else <["username" := PyNone]> ss1.

Lemma initialize_run {T} (s : app T) :
  initialize_session_state s = (Done (), App (initialized (session_state s)) (page s)).
Proof.
  destruct s as [ss pg]. unfold initialize_session_state, initialized. run_st.
  destruct (bool_decide (is_Some (ss !! "logged_in"))); simpl;
    by case_bool_decide.
Qed.

Lemma initialized_logged_in (ss : gmap string value) :
  initialized ss !! "logged_in" = Some (default (PyBool false) (ss !! "logged_in")).
Proof.
  unfold initialized. simpl.
  repeat case_bool_decide;
    rewrite ?(lookup_insert_ne _ "username" "logged_in"), ?lookup_insert_eq by done;
    repeat match goal with
    | Hs : is_Some (ss !! "logged_in") |- _ => destruct Hs as [? ->]
    | Hn : ¬ is_Some (ss !! "logged_in") |- _ =>
        apply eq_None_not_Some in Hn; rewrite ?Hn
    end; done.
Qed.

Lemma initialized_username (ss : gmap string value) :
  initialized ss !! "username" = Some (default PyNone (ss !! "username")).
Proof.
  assert (∀ ss1 : gmap string value,
            ss1 !! "username" = ss !! "username" →
            (if bool_decide (is_Some (ss1 !! "username")) then ss1
             else <["username" := PyNone]> ss1) !! "username"
            = Some (default PyNone (ss !! "username"))) as Hstep.
  { intros ss1 Heq. case_bool_decide as Hd.
    - destruct Hd as [v Hv]. by rewrite <-Heq, Hv.
    - rewrite lookup_insert_eq. apply eq_None_not_Some in Hd.
      by rewrite <-Heq, Hd. }
  unfold initialized. apply Hstep.
  case_bool_decide; [done|]. by rewrite lookup_insert_ne.
Qed.

Lemma initialized_other (ss : gmap string value) key :
  key ≠ "logged_in" → key ≠ "username" → initialized ss !! key = ss !! key.
Proof.
  intros. unfold initialized. simpl.
  repeat case_bool_decide; by rewrite ?lookup_insert_ne by done.
Qed.

Lemma initialized_keeps (ss : gmap string value) key v :
  ss !! key = Some v → initialized ss !! key = Some v.
Proof.
  intros Hk.
  destruct (decide (key = "logged_in")) as [->|];
    [by rewrite initialized_logged_in, Hk|].
  destruct (decide (key = "username")) as [->|];
    [by rewrite initialized_username, Hk|].
  by rewrite initialized_other.
Qed.

(** X1: [initialize_session_state] returns normally and draws nothing; a key
    that is set keeps its value, and [logged_in] and [username] exist
    afterwards, [False] and [None] where they were missing. *)
Theorem initialize_sets_only_missing {T} (s : app T) :
  (initialize_session_state s).1 = Done ()
  ∧ page (initialize_session_state s).2 = page s
  ∧ (∀ key v, session_state s !! key = Some v →
       session_state (initialize_session_state s).2 !! key = Some v)
  ∧ session_state (initialize_session_state s).2 !! "logged_in"
    = Some (default (PyBool false) (session_state s !! "logged_in"))
  ∧ session_state (initialize_session_state s).2 !! "username"
    = Some (default PyNone (session_state s !! "username"))
  ∧ (∀ key, key ≠ "logged_in" → key ≠ "username" →
       session_state (initialize_session_state s).2 !! key
       = session_state s !! key).
Proof.
  rewrite initialize_run. simpl. split_and!; [done..| | | |].
  - apply initialized_keeps.
  - apply initialized_logged_in.
  - apply initialized_username.
  - apply initialized_other.
Qed.

(** ** The script body (lines 156-162) *)

Section ScriptProperties.
Context `{NumericLib}.
Implicit Types (s : app (DataFrame ResultRow)) (fs : gmap string file).

(** Whether [st.session_state] holds a true [logged_in]. *)
Definition session_logged_in (ss : gmap string value) : bool :=
  from_option truthy false (ss !! "logged_in").

Lemma script_run fs username password login_clicked service_type procedure
    state find_clicked s :
  script fs username password login_clicked service_type procedure state
    find_clicked s
  = (if session_logged_in (session_state s)
     then main_app fs service_type procedure state find_clicked
     else login_page username password login_clicked)
      (App (initialized (session_state s)) (page s)).
Proof.
  unfold script. unfold mbind at 1. unfold St_bind. rewrite initialize_run.
  unfold mbind, St_bind, session_get. simpl.
  rewrite initialized_logged_in. unfold session_logged_in.
  destruct (session_state s !! "logged_in") as [v|]; simpl; [|done].
  by destruct (truthy v).
Qed.
End ScriptProperties.

(** ** Pages and the session *)

Section PageProperties.
Context `{NumericLib}.
Implicit Types (s : app (DataFrame ResultRow)) (fs : gmap string file).

Lemma login_page_run {T} (s : app T) username password login_clicked :
  login_page username password login_clicked s =
  let drawn := (page s ++ [Title "🔐 MediRank - Login"])
               ++ [Write "Please enter your credentials to access the hospital ranking system."] in
  if login_clicked then
    if authenticate username password then
      (Rerun,
       App (<["username" := PyStr username]>
              (<["logged_in" := PyBool true]> (session_state s)))
         (drawn ++ [Success ("✅ Welcome, " ++ username ++ "! Redirecting...")]))
    else
      (Done (), App (session_state s)
                  (drawn ++ [Error "❌ Invalid username or password."]))
  else (Done (), App (session_state s) drawn).
Proof.
  unfold login_page. destruct login_clicked; [|done].
  by destruct (authenticate username password).
Qed.

Lemma initialized_id (ss : gmap string value) :
  is_Some (ss !! "logged_in") → is_Some (ss !! "username") → initialized ss = ss.
Proof.
  intros Hl Hu. unfold initialized.
  rewrite (bool_decide_eq_true_2 _ Hl). simpl.
  by rewrite (bool_decide_eq_true_2 _ Hu).
Qed.

(** X2: a session that is not logged in gets the login page, whatever the
    files and the ranking inputs: the run is [login_page] on the initialized
    session, it raises nothing and draws no table. *)
Theorem anonymous_session_sees_login fs username password login_clicked
    service_type procedure state find_clicked s :
  session_logged_in (session_state s) = false →
  script fs username password login_clicked service_type procedure state
    find_clicked s
  = login_page username password login_clicked
      (App (initialized (session_state s)) (page s))
  ∧ (∀ e, (script fs username password login_clicked service_type procedure
             state find_clicked s).1 ≠ Raised e)
  ∧ ∃ drawn,
      page (script fs username password login_clicked service_type procedure
              state find_clicked s).2 = page s ++ drawn
      ∧ Forall (λ e, ∀ t, e ≠ Dataframe t) drawn.
Proof.
  intros Hanon. rewrite script_run, Hanon. split; [done|].
  rewrite login_page_run. simpl.
  destruct login_clicked; [destruct (authenticate username password)|]; simpl;
    (split; [done|]); rewrite <-!(assoc_L (++)); eexists; (split; [done|]);
    repeat constructor; done.
Qed.

(** X3: [logout] stops the run, and the run that follows shows the login
    page on the session [logout] left, whatever the session was before. *)
Theorem logout_returns_to_login fs username password login_clicked
    service_type procedure state find_clicked s :
  (logout s).1 = Rerun
  ∧ session_logged_in (session_state (logout s).2) = false
  ∧ script fs username password login_clicked service_type procedure state
      find_clicked (logout s).2
    = login_page username password login_clicked (logout s).2.
Proof.
  assert (session_logged_in (session_state (logout s).2) = false) as Hanon.
  { unfold session_logged_in. rewrite logout_session.
    by rewrite lookup_insert_ne, lookup_insert_eq. }
  split_and!; [done..|].
  rewrite script_run, Hanon. f_equal.
  rewrite initialized_id; [done| |].
  - rewrite logout_session. by rewrite lookup_insert_ne, lookup_insert_eq.
  - rewrite logout_session. by rewrite lookup_insert_eq.
Qed.



End PageProperties.

(** ** What the session can hold *)

Section SessionInvariants.
Context `{NumericLib}.
Implicit Types (s : app (DataFrame ResultRow)) (fs : gmap string file).

(** X6: no operation of the script writes a key of [st.session_state] other
    than [logged_in] and [username]. *)
Theorem other_keys_untouched fs username password login_clicked service_type
    procedure state find_clicked s key :
  key ≠ "logged_in" → key ≠ "username" →
  session_state (initialize_session_state s).2 !! key = session_state s !! key
  ∧ session_state (login_page username password login_clicked s).2 !! key
    = session_state s !! key
  ∧ session_state (logout s).2 !! key = session_state s !! key
  ∧ session_state (main_app fs service_type procedure state find_clicked s).2
      !! key = session_state s !! key
  ∧ session_state (script fs username password login_clicked service_type
                     procedure state find_clicked s).2 !! key
    = session_state s !! key.
Proof.
  intros Hl Hu.
  assert (session_state (login_page username password login_clicked s).2 !! key
          = session_state s !! key) as Hlogin.
  { intros. rewrite login_page_session.
    destruct (login_clicked && authenticate username password); [|done].
    by rewrite !lookup_insert_ne. }
  split_and!; [| done | | |].
  - rewrite initialize_run. by apply initialized_other.
  - rewrite logout_session. by rewrite !lookup_insert_ne.
  - by rewrite main_app_keeps.
  - rewrite script_run. destruct (session_logged_in _).
    + rewrite main_app_keeps. by apply initialized_other.
    + rewrite login_page_session. simpl.
      destruct (login_clicked && authenticate username password);
        rewrite ?lookup_insert_ne by done; by apply initialized_other.
Qed.

(** The names of the credential store. *)
Definition known_user (u : string) : Prop := is_Some (USER_CREDENTIALS !! u).

(** Every name a session holds is one of the credential store. *)
Definition names_known (ss : gmap string value) : Prop :=
  ∀ u, ss !! "username" = Some (PyStr u) → known_user u.

Lemma reachable_names_known s :
  reachable s → session_consistent (session_state s) ∧ names_known (session_state s).
Proof.
  induction 1 as [|s _ [IHc IHn]|s u p c _ [IHc IHn]|s _ [IHc IHn]
                  |s fs st p q c _ [IHc IHn]].
  - split.
    + unfold session_consistent, logged_in_set, username_set. simpl.
      rewrite !lookup_empty. split; [done|by intros [? ?]].
    + intros u. simpl. by rewrite lookup_empty.
  - rewrite initialize_run. simpl.
    split; [unfold initialized; by apply consistent_initialize|]. intros u.
    rewrite initialized_username. intros [= Hu]. apply IHn.
    by destruct (session_state s !! "username"); simplify_eq/=.
  - rewrite login_page_session.
    destruct (c && authenticate u p) eqn:Hok; [|done].
    split; [apply consistent_login|].
    intros u'. rewrite lookup_insert_eq. intros [= <-].
    apply andb_true_iff in Hok as [_ Hok].
    apply authenticate_lookup in Hok. unfold known_user. by rewrite Hok.
  - rewrite logout_session. split; [apply consistent_logout|].
    intros u. by rewrite lookup_insert_eq.
  - by rewrite main_app_keeps.
Qed.

(** X7: in every state a session can reach, a true [logged_in] comes with
    the name of a user of the credential store, "admin" or "user"; no
    sequence of operations logs in anybody else. *)
Theorem logged_in_user_has_credentials s :
  reachable s → logged_in_set (session_state s) →
  ∃ u, session_state s !! "username" = Some (PyStr u)
       ∧ known_user u
       ∧ (u = "admin" ∨ u = "user").
Proof.
  intros [Hc Hn]%reachable_names_known Hl.
  destruct (proj1 Hc Hl) as [u Hu]. exists u.
  pose proof (Hn u Hu) as [pw Hpw]. split_and!; [done|by exists pw|].
  apply credentials_lookup in Hpw. tauto.
Qed.
End SessionInvariants.

(** ** Loading, file by file *)

(** [path] exists and cannot be loaded. *)
Definition unreadable `{NumericLib} (fs : gmap string file) (path : string) : Prop :=
  fs !! path = Some Denied ∨ fs !! path = Some Garbage.

Section LoaderRuns.
Context `{NumericLib} {T : Type}.
Implicit Types (fs : gmap string file) (s : app T).



Lemma load_pickle_unreadable fs path :
  unreadable fs path →
  ∃ e, load_pickle fs path = Err e
       ∧ is_FileNotFoundError e = false
       ∧ (exc_type e = PermissionError ∨ exc_type e = UnpicklingError).
Proof.
  unfold load_pickle. intros [-> | ->]; eexists; split_and!; eauto.
Qed.



End LoaderRuns.

(** ** The ranking page and the files *)

Section PageAndFiles.
Context `{NumericLib}.
Implicit Types (s : app (DataFrame ResultRow)) (fs : gmap string file).





End PageAndFiles.

(** ** Labels offered and labels encoded *)

Section Labels.
Context `{NumericLib}.
Implicit Types a : artifacts.

(** Lines 99-104: the options of the procedure and state select boxes. *)
Definition select_options a (service_type : string)
    : result (list string * list string) :=
  if String.eqb service_type "Inpatient" then
    procedure_options ← classes_ (inpatient_le_drg a);
    state_options ← classes_ (inpatient_le_state a);
    mret (procedure_options, state_options)
  else
    procedure_options ← classes_ (outpatient_le_apc a);
    state_options ← classes_ (outpatient_le_state a);
    mret (procedure_options, state_options).

Lemma select_options_encoders a service_type procedure_options state_options :
  select_options a service_type = Ok (procedure_options, state_options) →
  ∃ le_procedure le_state,
    procedure_encoder a service_type = Encoder le_procedure
    ∧ state_encoder a service_type = Encoder le_state
    ∧ le_classes le_procedure = procedure_options
    ∧ le_classes le_state = state_options.
Proof.
  unfold select_options, procedure_encoder, state_encoder.
  destruct (String.eqb service_type "Inpatient").
  - destruct (inpatient_le_drg a) as [?|lp]; [done|].
    destruct (inpatient_le_state a) as [?|ls]; [done|].
    intros [= <- <-]. by exists lp, ls.
  - destruct (outpatient_le_apc a) as [?|lp]; [done|].
    destruct (outpatient_le_state a) as [?|ls]; [done|].
    intros [= <- <-]. by exists lp, ls.
Qed.

(** X11: every pair of labels the two select boxes offer for a service type
    is encoded without error by the encoders the request uses for it, and
    each code is the position of its label among the options. *)
Theorem offered_labels_encode a service_type procedure_options state_options
    procedure state :
  select_options a service_type = Ok (procedure_options, state_options) →
  procedure ∈ procedure_options → state ∈ state_options →
  ∃ i j,
    encode_request a service_type procedure state
    = Ok (Z.of_nat i, Z.of_nat j, selected_model a service_type)
    ∧ procedure_options !! i = Some procedure
    ∧ state_options !! j = Some state.
Proof.
  intros (lp & ls & Hp & Hs & <- & <-)%select_options_encoders Hpin Hsin.
  destruct (encode_label_valid _ _ Hpin) as (i & Hi & Hli).
  destruct (encode_label_valid _ _ Hsin) as (j & Hj & Hlj).
  exists i, j. split_and!; [|done..].
  rewrite encode_request_selected, Hp, Hs. simpl.
  unfold mbind, result_bind. by rewrite Hi, Hj.
Qed.

(** X13: a request for "Inpatient" is answered from the inpatient model and
    encoders alone, and a request for any other service type from the
    outpatient ones alone. *)
Theorem service_uses_own_artifacts a a' service_type procedure state :
  (service_type = "Inpatient" →
   inpatient_model a = inpatient_model a' →
   inpatient_le_drg a = inpatient_le_drg a' →
   inpatient_le_state a = inpatient_le_state a' →
   rank_top3 a service_type procedure state
   = rank_top3 a' service_type procedure state)
  ∧ (service_type ≠ "Inpatient" →
     outpatient_model a = outpatient_model a' →
     outpatient_le_apc a = outpatient_le_apc a' →
     outpatient_le_state a = outpatient_le_state a' →
     rank_top3 a service_type procedure state
     = rank_top3 a' service_type procedure state).
Proof.
  split.
  - intros -> Hm Hp Hs. unfold rank_top3, encode_request. simpl.
    by rewrite Hm, Hp, Hs.
  - intros Hother Hm Hp Hs. unfold rank_top3, encode_request.
    apply String.eqb_neq in Hother. rewrite Hother. by rewrite Hm, Hp, Hs.
Qed.
End Labels.

(** ** What [rank_providers] returns for any table *)

Section RankProviders.
Context `{NumericLib}.

Lemma top_labels n (df : DataFrame (CandidateRow * cost)) :
  (select_columns (df_head n (assign_rank df))).*1 = take n df.*1.
Proof.
  revert n. induction df as [|[i [r c]] df IH]; intros [|n]; simpl; [done..|].
  f_equal. apply IH.
Qed.

Lemma top_pairs n (df : DataFrame (CandidateRow * cost)) :
  (λ r, (Top_Provider_Id r, Average_Total_Payments r))
    <$> (select_columns (df_head n (assign_rank df))).*2
  = take n ((λ r, (Provider_Id r.1, r.2)) <$> df.*2).
Proof.
  revert n. induction df as [|[i [r c]] df IH]; intros [|n]; simpl; [done..|].
  f_equal. apply IH.
Qed.

Lemma set_column_pairs (df : DataFrame CandidateRow) (costs : list cost) :
  (λ r, (Provider_Id r.1, r.2))
    <$> (zip_with (λ '(i, r) v, (i, (r, v))) df costs).*2
  = zip (Provider_Id <$> df.*2) costs.
Proof.
  revert costs. induction df as [|[i r] df IH]; intros [|c costs]; simpl;
    [done..|]. f_equal. apply IH.
Qed.

Lemma take_RangeIndex k n :
  take k (RangeIndex n) = seqZ 0 (Z.of_nat (min k n)).
Proof.
  unfold RangeIndex, seqZ. by rewrite <-fmap_take, !Nat2Z.id, take_seq.
Qed.

(** X14: when the model answers with a number of predictions other than the
    number of rows, [rank_providers] fails with [ValueError] instead of
    ranking a part of the table. *)
Theorem wrong_prediction_count_fails model (input_data : DataFrame CandidateRow)
    costs :
  predict model input_data = Ok costs → length costs ≠ length input_data →
  ∃ e, rank_providers model input_data = Err e ∧ exc_type e = ValueError.
Proof.
  intros Hp Hl. unfold rank_providers. rewrite Hp.
  cbv beta iota delta [mbind result_bind]. unfold set_column.
  apply Nat.eqb_neq in Hl. rewrite Hl. eauto.
Qed.

Context `{!NumericContract H}.

(** X15: for a table of any size, [rank_providers] returns the first
    [min 3 n] rows of the sorted table, labelled [0, 1, ...] and ranked
    [1, 2, ...]; an empty table gives an empty result, not an error. *)
Theorem rank_providers_head model (input_data : DataFrame CandidateRow) costs :
  predict model input_data = Ok costs → length costs = length input_data →
  ∃ top,
    rank_providers model input_data = Ok top
    ∧ length top = min 3 (length input_data)
    ∧ top.*1 = seqZ 0 (Z.of_nat (min 3 (length input_data)))
    ∧ Rank <$> top.*2 = seqZ 1 (Z.of_nat (min 3 (length input_data))).
Proof.
  intros Hp Hl. eexists. split; [by apply rank_providers_ok|].
  set (predicted := zip_with (λ '(i, r) v, (i, (r, v))) input_data costs).
  assert (length (sort_by_cost predicted) = length input_data) as Hn.
  { rewrite sort_by_cost_perm. unfold predicted. rewrite length_zip_with. lia. }
  split_and!.
  - by rewrite top_length, <-(length_fmap snd (reset_index _)), reset_index_rows,
      length_fmap, Hn.
  - by rewrite top_labels, reset_index_labels, take_RangeIndex, Hn.
  - rewrite top_ranks, reset_index_labels, take_RangeIndex, Hn.
    rewrite <-(fmap_add_seqZ 1 0). apply list_fmap_ext. intros. lia.
Qed.

(** X16: the rows [rank_providers] returns are the cheapest of the table:
    the predicted costs are those shown together with the rest, and no cost
    of the rest is below a cost shown. *)
Theorem rank_providers_cheapest model (input_data : DataFrame CandidateRow)
    costs :
  Transitive cost_le →
  predict model input_data = Ok costs → length costs = length input_data →
  ∃ top rest,
    rank_providers model input_data = Ok top
    ∧ costs ≡ₚ (Average_Total_Payments <$> top.*2) ++ rest
    ∧ ∀ shown other,
        shown ∈ Average_Total_Payments <$> top.*2 → other ∈ rest →
        cost_le shown other.
Proof.
  intros Htrans Hp Hl.
  set (predicted := zip_with (λ '(i, r) v, (i, (r, v))) input_data costs).
  set (sorted := snd <$> (sort_by_cost predicted).*2).
  eexists _, (drop 3 sorted). split; [by apply rank_providers_ok|].
  fold predicted. rewrite top_costs, reset_index_rows. fold sorted.
  split.
  - rewrite take_drop. unfold sorted. rewrite sort_by_cost_perm.
    rewrite <-list_fmap_compose. unfold predicted.
    by rewrite <-(set_column_values input_data costs Hl) at 1.
  - intros shown other Hshown Hother.
    eapply (StronglySorted_app_1_elem_of cost_le (take 3 sorted) (drop 3 sorted));
      [|done..].
    rewrite take_drop. apply Sorted_StronglySorted; [done|].
    apply sort_by_cost_sorted.
Qed.

(** X17: each row [rank_providers] returns pairs a provider of the table
    with the cost predicted for that very row, and no row of the table is
    returned twice; distinct providers in the table stay distinct. *)
Theorem rank_providers_pairs model (input_data : DataFrame CandidateRow) costs :
  predict model input_data = Ok costs → length costs = length input_data →
  ∃ top rest,
    rank_providers model input_data = Ok top
    ∧ zip (Provider_Id <$> input_data.*2) costs
      ≡ₚ ((λ r, (Top_Provider_Id r, Average_Total_Payments r)) <$> top.*2) ++ rest
    ∧ (NoDup (Provider_Id <$> input_data.*2) →
       NoDup (Top_Provider_Id <$> top.*2)).
Proof.
  intros Hp Hl.
  set (predicted := zip_with (λ '(i, r) v, (i, (r, v))) input_data costs).
  set (sorted := (λ r : CandidateRow * cost, (Provider_Id r.1, r.2))
                   <$> (sort_by_cost predicted).*2).
  assert (zip (Provider_Id <$> input_data.*2) costs ≡ₚ sorted) as Hperm.
  { unfold sorted. rewrite sort_by_cost_perm. unfold predicted.
    by rewrite set_column_pairs. }
  eexists _, (drop 3 sorted). split; [by apply rank_providers_ok|].
  fold predicted. rewrite top_pairs, reset_index_rows. fold sorted.
  split; [by rewrite take_drop|].
  intros Hnodup.
  rewrite top_providers, reset_index_rows.
  assert (Provider_Id <$> input_data.*2 ≡ₚ sorted.*1) as Hids.
  { rewrite <-Hperm. rewrite fst_zip; [done|].
    rewrite !length_fmap. lia. }
  rewrite Hids, <-(take_drop 3 sorted), fmap_app in Hnodup.
  apply NoDup_app in Hnodup as [Hnodup _].
  rewrite fmap_take in Hnodup. unfold sorted in Hnodup.
  by rewrite <-list_fmap_compose in Hnodup.
Qed.
End RankProviders.

(** * Further concrete runs *)

Section FurtherRuns.
#[local] Existing Instance stable_lib.
#[local] Existing Instance stable_lib_contract.

Definition varied_fs : gmap string file := sample_fs stable_lib varied_price.



Lemma anonymous_session_sees_login_witness :
  script varied_fs "guest" "guess" true "Inpatient" "DRG-001" "CA" true new_app
  = login_page "guest" "guess" true
      (App (initialized (session_state new_app)) (page new_app))
  ∧ (∀ e, (script varied_fs "guest" "guess" true "Inpatient" "DRG-001" "CA" true
             new_app).1 ≠ Raised e)
  ∧ ∃ drawn,
      page (script varied_fs "guest" "guess" true "Inpatient" "DRG-001" "CA" true
              new_app).2 = page new_app ++ drawn
      ∧ Forall (λ e, ∀ t, e ≠ Dataframe t) drawn.
Proof.
  exact (anonymous_session_sees_login varied_fs "guest" "guess" true "Inpatient"
           "DRG-001" "CA" true new_app eq_refl).
Defined.



(** A session that also holds a key of some widget. *)
Definition themed_app : app (DataFrame ResultRow) :=
  App (<["theme" := PyStr "dark"]> admin_session) [].

Lemma other_keys_untouched_witness :
  session_state (initialize_session_state themed_app).2 !! "theme"
  = session_state themed_app !! "theme"
  ∧ session_state (login_page "user" "medi123" true themed_app).2 !! "theme"
    = session_state themed_app !! "theme"
  ∧ session_state (logout themed_app).2 !! "theme"
    = session_state themed_app !! "theme"
  ∧ session_state (main_app varied_fs "Inpatient" "DRG-001" "CA" true themed_app).2
      !! "theme" = session_state themed_app !! "theme"
  ∧ session_state (script varied_fs "user" "medi123" true "Inpatient" "DRG-001"
                     "CA" true themed_app).2 !! "theme"
    = session_state themed_app !! "theme".
Proof.
  apply (other_keys_untouched varied_fs "user" "medi123" true "Inpatient"
           "DRG-001" "CA" true themed_app "theme"); discriminate.
Defined.

Lemma logged_in_user_has_credentials_witness :
  ∃ u, session_state after_login !! "username" = Some (PyStr u)
       ∧ known_user u
       ∧ (u = "admin" ∨ u = "user").
Proof.
  apply logged_in_user_has_credentials.
  - apply reach_login, reach_initialize, reach_new.
  - reflexivity.
Defined.



Lemma offered_labels_encode_witness :
  ∃ i j,
    encode_request varied_artifacts "Outpatient" "APC-0013" "TX"
    = Ok (Z.of_nat i, Z.of_nat j, selected_model varied_artifacts "Outpatient")
    ∧ ["APC-0012"; "APC-0013"] !! i = Some "APC-0013"
    ∧ ["AL"; "CA"; "TX"] !! j = Some "TX".
Proof.
  apply (offered_labels_encode varied_artifacts "Outpatient"
           ["APC-0012"; "APC-0013"] ["AL"; "CA"; "TX"] "APC-0013" "TX").
  - reflexivity.
  - apply list_elem_of_In. simpl. tauto.
  - apply list_elem_of_In. simpl. tauto.
Defined.

(** The same inpatient artifacts, with other outpatient ones. *)
Definition mixed_artifacts : artifacts :=
  {| inpatient_model := sample_model stable_lib varied_price;
     outpatient_model := sample_model stable_lib flat_price;
     inpatient_le_drg := sample_le_drg stable_lib;
     inpatient_le_state := sample_le_state stable_lib;
     outpatient_le_apc := sample_le_drg stable_lib;
     outpatient_le_state := sample_le_state stable_lib |}.

Lemma service_uses_own_artifacts_witness :
  rank_top3 varied_artifacts "Inpatient" "DRG-002" "TX"
  = rank_top3 mixed_artifacts "Inpatient" "DRG-002" "TX".
Proof.
  apply (proj1 (service_uses_own_artifacts varied_artifacts mixed_artifacts
                  "Inpatient" "DRG-002" "TX")); reflexivity.
Defined.

(** A small table, and a model that answers with no prediction at all. *)
Definition two_rows : DataFrame CandidateRow :=
  [(0%Z, candidate_row 0 1 520000); (1%Z, candidate_row 0 1 520001)].

Definition five_rows : DataFrame CandidateRow :=
  zip (RangeIndex 5) (candidate_row 2 0 <$> seqZ 520000 5).

Definition silent_model : pyobj := Regressor {| model_predict := λ _, Ok [] |}.

Definition varied_model : pyobj := sample_model stable_lib varied_price.

Lemma wrong_prediction_count_fails_witness :
  ∃ e, rank_providers silent_model two_rows = Err e ∧ exc_type e = ValueError.
Proof.
  apply (wrong_prediction_count_fails silent_model two_rows []).
  - reflexivity.
  - discriminate.
Defined.

Lemma rank_providers_head_witness :
  ∃ top,
    rank_providers varied_model two_rows = Ok top
    ∧ length top = min 3 (length two_rows)
    ∧ top.*1 = seqZ 0 (Z.of_nat (min 3 (length two_rows)))
    ∧ Rank <$> top.*2 = seqZ 1 (Z.of_nat (min 3 (length two_rows))).
Proof.
  apply (rank_providers_head varied_model two_rows (varied_price <$> two_rows.*2));
    reflexivity.
Defined.

Lemma rank_providers_cheapest_witness :
  ∃ top rest,
    rank_providers varied_model five_rows = Ok top
    ∧ varied_price <$> five_rows.*2
      ≡ₚ (Average_Total_Payments <$> top.*2) ++ rest
    ∧ ∀ shown other,
        shown ∈ Average_Total_Payments <$> top.*2 → other ∈ rest →
        cost_le shown other.
Proof.
  apply (rank_providers_cheapest varied_model five_rows
           (varied_price <$> five_rows.*2)).
  - intros x y z. apply Z.le_trans.
  - reflexivity.
  - reflexivity.
Defined.

Lemma rank_providers_pairs_witness :
  ∃ top rest,
    rank_providers varied_model five_rows = Ok top
    ∧ zip (Provider_Id <$> five_rows.*2) (varied_price <$> five_rows.*2)
      ≡ₚ ((λ r, (Top_Provider_Id r, Average_Total_Payments r)) <$> top.*2) ++ rest
    ∧ (NoDup (Provider_Id <$> five_rows.*2) →
       NoDup (Top_Provider_Id <$> top.*2)).
Proof.
  apply (rank_providers_pairs varied_model five_rows
           (varied_price <$> five_rows.*2)); reflexivity.
Defined.
End FurtherRuns.
